(** * Theme preference resolution of the Epic Ranking root route

    A shallow embedding of the theme logic of the root route module
    (app/root.tsx): [ThemeFormSchema], the route [action], the hooks
    [useTheme] and [useOptimisticThemeMode], the [ThemeSwitch] component
    with its [nextMode] cycle, the [links] of the route, and the link
    component of app/components/ui/link.tsx.

    React hooks read ambient state; here every hook result the code reads
    ([useHints], [useRequestInfo], [useFetchers]) is an explicit argument.
    The form library (conform) is not part of the repository: the step of
    its parser that turns form data into an object is an argument of the
    model, [conform_parse], and the statements hold for every such step;
    those that need more say so with [conform_contract]. *)

From stdpp Require Import base option list strings gmap.

Local Open Scope string_scope.
Local Open Scope list_scope.

(** ** Data model *)

(** The members of [z.enum(['system', 'light', 'dark'])]. *)
Inductive ThemeMode : Type :=
  | system
  | light
  | dark.

#[global] Instance ThemeMode_eq_dec : EqDecision ThemeMode.
Proof. solve_decision. Defined.

(** The string literal of each enumeration member, as it travels in a form
    field and in a class name. *)
Definition theme_string (m : ThemeMode) : string :=
  match m with
  | system => "system"
  | light => "light"
  | dark => "dark"
  end.

(** A mode that can be rendered as it is: the class name put on [<html>] by
    [Document] is [light] or [dark]. *)
Definition renderable (m : ThemeMode) : Prop := m = light \/ m = dark.

(** A value of a form field once the form data has been turned into a plain
    object keyed by field name: a string, an uploaded file, or the list of
    values of a repeated field. *)
Inductive FormValue : Type :=
  | FormString (s : string)
  | FormFile (filename : string)
  | FormArray (items : list string).

(** The object the schema is run on. *)
Abbreviation Payload := (gmap string FormValue).

(** A value of a [FormData] entry as the browser sends it: a string or a
    file. *)
Inductive FormDataEntryValue : Type :=
  | EntryString (s : string)
  | EntryFile (filename : string).

(** A [FormData]: its entries in order, names may repeat. *)
Abbreviation FormData := (list (string * FormDataEntryValue)).

(** [formData.get(name)]: the value of the first entry with that name. *)
Definition FormData_get (name : string) (formData : FormData)
    : option FormDataEntryValue :=
  snd <$> find (fun entry => bool_decide (fst entry = name)) formData.

(** Modelled from the spec: the type of [hints.theme] is declared in
    utils/client-hints.tsx, which is not part of the visible source. The
    spec gives the client hint as a ThemeMode-compatible value that is
    [light] or [dark]; statements that need it say so with [renderable].
    [hints] is the result of [useHints()]; only [hints.theme] is read. *)
Record Hints : Type := { hints_theme : ThemeMode }.

(** Modelled from the spec: the type [Theme] of the stored preference is
    declared in utils/theme.server.ts, which is not part of the visible
    source. The spec's data model gives the stored preference as an optional
    ThemeMode ("string enum or absent"). [None] stands for both [null] and
    [undefined]. *)
Record UserPrefs : Type := { userPrefs_theme : option ThemeMode }.

(** [requestInfo] as returned by [useRequestInfo()]; only
    [requestInfo.userPrefs.theme] is read. *)
Record RequestInfo : Type := { userPrefs : UserPrefs }.

(** An entry of [useFetchers()]: [formAction] and [formData] are both
    [undefined] while the fetcher is idle. *)
Record Fetcher : Type := {
  formAction : option string;
  formData : option FormData
}.

(** ** Results and thrown values *)

Inductive SubmissionStatus : Type :=
  | success
  | error.

#[global] Instance SubmissionStatus_eq_dec : EqDecision SubmissionStatus.
Proof. solve_decision. Defined.

(** [submission.value] of the theme form: an object with the field [theme]. *)
Record ThemeForm : Type := { theme : ThemeMode }.

(** The result of [parseWithZod]. [status] is ['success'], ['error'] or
    [undefined] ([None]); [value] is defined on success only. *)
Record Submission : Type := {
  sub_status : option SubmissionStatus;
  sub_value : option ThemeForm
}.

(** A form control intent carried by the reserved field [__intent__]; only
    its presence decides the status of a submission. *)
Record Intent : Type := { intent_type : string }.

(** What the parser of the form library has in hand when it calls the
    schema: the object built from the entries and the intent, if any. *)
Record SubmissionContext : Type := {
  ctx_payload : Payload;
  ctx_intent : option Intent
}.

Inductive Body : Type :=
  | TextBody (message : string)
  | JsonResult (result : option SubmissionStatus).

Record Response : Type := {
  status : nat;
  set_cookie : option string;
  body : Body
}.

(** What a call can throw: a [TypeError] for a property read on [undefined],
    a [SyntaxError] or plain [Error] of the form library, or a [Response]
    thrown by [invariantResponse]. *)
Inductive Thrown : Type :=
  | TypeError (what : string)
  | SyntaxError (what : string)
  | Error (message : string)
  | ThrownResponse (r : Response).

(** A call either returns a value or throws. *)
Inductive Js (A : Type) : Type :=
  | Return (a : A)
  | Throw (e : Thrown).

Arguments Return {A} a.
Arguments Throw {A} e.

#[global] Instance Js_ret : MRet Js := @Return.
#[global] Instance Js_bind : MBind Js := fun A B f m =>
  match m with
  | Return a => f a
  | Throw e => Throw e
  end.

(** ** The schema and the parsing helpers *)

(** [z.enum(['system', 'light', 'dark'])] on a string. *)
Definition z_enum (s : string) : option ThemeMode :=
  if decide (s = "system") then Some system
  else if decide (s = "light") then Some light
  else if decide (s = "dark") then Some dark
  else None.

(** [ThemeFormSchema = z.object({ theme: z.enum([...]) })], as a safe parse:
    the field [theme] must be present and hold one of the three strings;
    other fields are ignored. *)
Definition ThemeFormSchema (payload : Payload) : option ThemeForm :=
  match payload !! "theme" with
  | Some (FormString s) =>
      match z_enum s with
      | Some m => Some {| theme := m |}
      | None => None
      end
  | _ => None
  end.

(** The submission the form library makes of a context and of the outcome
    of the schema: with an intent the status is [undefined]; without one it
    is ['success'] when the schema gave a value and ['error'] otherwise. *)
Definition createSubmission (context : SubmissionContext)
    (value : option ThemeForm) : Submission :=
  match ctx_intent context, value with
  | None, Some v => {| sub_status := Some success; sub_value := Some v |}
  | None, None => {| sub_status := Some error; sub_value := None |}
  | Some _, _ => {| sub_status := None; sub_value := None |}
  end.

(** [submission.value.theme]: reading [theme] off an undefined [value]
    throws. *)
Definition value_theme (submission : Submission) : Js ThemeMode :=
  match sub_value submission with
  | Some v => Return (theme v)
  | None => Throw (TypeError "submission.value is undefined")
  end.

(** [invariantResponse(condition, message)]: throws a 400 response carrying
    the message unless the condition holds. *)
Definition invariantResponse (condition : bool) (message : string) : Js unit :=
  if condition then Return tt
  else Throw (ThrownResponse
                {| status := 400; set_cookie := None; body := TextBody message |}).

(** [f.formAction === '/'] *)
Definition is_theme_fetcher (f : Fetcher) : bool :=
  bool_decide (formAction f = Some "/").

(** ** The theme switch: modes and icons *)

(** [nextMode] of [ThemeSwitch], as a function of [mode]. *)
Definition nextMode (mode : ThemeMode) : ThemeMode :=
  if decide (mode = system) then light
  else if decide (mode = light) then dark
  else system.

(** The icon name of [modeLabel[mode]]. *)
Definition modeLabel (mode : ThemeMode) : string :=
  match mode with
  | light => "sun"
  | dark => "moon"
  | system => "laptop"
  end.

(** What [ThemeSwitch] renders of its own: the method of the form, its
    hidden inputs (name and value) and the icon on its submit button; [mode]
    is kept for reference. The attributes spread from [getFormProps(form)]
    come from the form library and are not part of this record. *)
Record ThemeSwitchForm : Type := {
  form_mode : ThemeMode;
  form_method : string;
  form_inputs : list (string * string);
  form_button : string
}.

(** The form data a browser sends when the form is submitted: one string
    entry per input. *)
Definition submit (form : ThemeSwitchForm) : FormData :=
  prod_map id EntryString <$> form_inputs form.

(** The fetcher a submission of the form puts in flight: its [formAction] is
    the action the form posts to and its [formData] the submitted entries. *)
Definition in_flight (formAction : string) (form : ThemeSwitchForm) : Fetcher :=
  {| formAction := Some formAction; formData := Some (submit form) |}.

(** The [className] of the [<html>] element rendered by [Document]; the
    parameter default [theme = 'light'] applies when no theme is passed. *)
Definition Document_className (theme : option ThemeMode) : string :=
  theme_string (default light theme) +:+ " h-full overflow-x-hidden".

(** What [App] renders, as far as the theme goes: the class of [<html>] and
    the theme switch in the header. *)
Record AppView : Type := {
  html_className : string;
  themeSwitch : ThemeSwitchForm
}.

(** [ErrorBoundary()] renders [Document] without a theme. *)
Definition ErrorBoundary_className : string := Document_className None.

(** ** The code that calls the form library *)

Section Conform.

(** The parser of the form library up to its call of the schema: it reads
    the reserved fields [__intent__] and [__state__], builds the object from
    the names of the other entries and applies the intent. It throws on
    reserved fields it cannot read. *)
Variable conform_parse : FormData -> Js SubmissionContext.

(** [parseWithZod(formData, { schema })]: the library step, then the schema
    on the object, then the submission. Invalid data is reported in the
    status; what the library step throws is thrown. *)
Definition parseWithZod (schema : Payload -> option ThemeForm)
    (formData : FormData) : Js Submission :=
  context ← conform_parse formData;
  Return (createSubmission context (schema (ctx_payload context))).

(** [setTheme] of utils/theme.server.ts serialises the cookie; its text is
    not needed, only that the header is built from the validated value. *)
Variable setTheme : ThemeMode -> string.

(** [action({ request })], on the form data of the request. *)
Definition action (formData : FormData) : Js Response :=
  submission ← parseWithZod ThemeFormSchema formData;
  _ ← invariantResponse
        (bool_decide (sub_status submission = Some success))
        "Invalid theme received";
  theme ← value_theme submission;
  Return {| status := 200;
            set_cookie := Some (setTheme theme);
            body := JsonResult (sub_status submission) |}.

(** [useOptimisticThemeMode()], on the snapshot returned by [useFetchers()].
    [None] is the implicit [undefined] of the source. The call of
    [parseWithZod] is not guarded: what it throws leaves the hook. *)
Definition useOptimisticThemeMode (fetchers : list Fetcher)
    : Js (option ThemeMode) :=
  let themeFetcher := find is_theme_fetcher fetchers in
  match themeFetcher with
  | Some f =>
      match formData f with
      | Some fd =>
          submission ← parseWithZod ThemeFormSchema fd;
          if bool_decide (sub_status submission = Some success)
          then m ← value_theme submission; Return (Some m)
          else Return None
      | None => Return None
      end
  | None => Return None
  end.

(** [useTheme()]. Every member of the enumeration is a non-empty string, so
    [if (optimisticMode)] tests that the value is defined. *)
Definition useTheme (hints : Hints) (requestInfo : RequestInfo)
    (fetchers : list Fetcher) : Js ThemeMode :=
  optimisticMode ← useOptimisticThemeMode fetchers;
  match optimisticMode with
  | Some m =>
      Return (if decide (m = system) then hints_theme hints else m)
  | None =>
      Return (match userPrefs_theme (userPrefs requestInfo) with
              | Some t => t
              | None => hints_theme hints
              end)
  end.

(** [ThemeSwitch({ userPreference })]. *)
Definition ThemeSwitch (fetchers : list Fetcher)
    (userPreference : option ThemeMode) : Js ThemeSwitchForm :=
  optimisticMode ← useOptimisticThemeMode fetchers;
  let mode :=
    match optimisticMode with
    | Some m => m
    | None =>
        match userPreference with
        | Some t => t
        | None => system
        end
    end in
  Return {| form_mode := mode;
            form_method := "POST";
            form_inputs := [("theme", theme_string (nextMode mode))];
            form_button := modeLabel mode |}.

(** [App()], as far as the theme goes: [Document] gets [useTheme()],
    [ThemeSwitch] gets [data.requestInfo.userPrefs.theme] of the loader
    data. [requestInfo] is what [useRequestInfo()] returns inside
    [useTheme], [data_requestInfo] is [useLoaderData().requestInfo]. The
    other hooks of [App] ([useNonce], [useToast]) do not feed the theme and
    are left out, so this says what a rendered [App] shows, not that [App]
    renders. *)
Definition App (hints : Hints) (requestInfo data_requestInfo : RequestInfo)
    (fetchers : list Fetcher) : Js AppView :=
  theme ← useTheme hints requestInfo fetchers;
  switch ← ThemeSwitch fetchers (userPrefs_theme (userPrefs data_requestInfo));
  Return {| html_className := Document_className (Some theme);
            themeSwitch := switch |}.

End Conform.

(** ** The link descriptors of the route *)

Record LinkDescriptor : Type := {
  rel : string;
  href : string;
  link_as : option string;
  link_type : option string;
  crossOrigin : option string
}.

(** [links()]. [iconsHref] and [tailwindStyleSheetUrl] are imported asset
    URLs; [cssBundleHref] is a string or [undefined], and the empty string is
    falsy like [undefined]. [.filter(Boolean)] drops the [null] entries. *)
Definition links (iconsHref tailwindStyleSheetUrl : string)
    (cssBundleHref : option string) : list LinkDescriptor :=
  let bundle :=
    match cssBundleHref with
    | Some h => if decide (h = "") then None else Some h
    | None => None
    end in
  omap id
    [ Some {| rel := "preload"; href := iconsHref; link_as := Some "image";
              link_type := None; crossOrigin := None |};
      Some {| rel := "preload"; href := tailwindStyleSheetUrl;
              link_as := Some "style"; link_type := None;
              crossOrigin := None |};
      match bundle with
      | Some h => Some {| rel := "preload"; href := h; link_as := Some "style";
                          link_type := None; crossOrigin := None |}
      | None => None
      end;
      Some {| rel := "mask-icon"; href := "/favicons/mask-icon.svg";
              link_as := None; link_type := None; crossOrigin := None |};
      Some {| rel := "alternate icon"; href := "/favicons/favicon-32x32.png";
              link_as := None; link_type := Some "image/png";
              crossOrigin := None |};
      Some {| rel := "apple-touch-icon";
              href := "/favicons/apple-touch-icon.png";
              link_as := None; link_type := None; crossOrigin := None |};
      Some {| rel := "manifest"; href := "/site.webmanifest";
              link_as := None; link_type := None;
              crossOrigin := Some "use-credentials" |};
      Some {| rel := "icon"; href := "/favicons/favicon.svg";
              link_as := None; link_type := Some "image/svg+xml";
              crossOrigin := None |};
      Some {| rel := "stylesheet"; href := tailwindStyleSheetUrl;
              link_as := None; link_type := None; crossOrigin := None |};
      match bundle with
      | Some h => Some {| rel := "stylesheet"; href := h; link_as := None;
                          link_type := None; crossOrigin := None |}
      | None => None
      end ].

(** A preload of a style sheet, and a style sheet, with a given [href]. *)
Definition is_style_preload (h : string) (l : LinkDescriptor) : Prop :=
  rel l = "preload" /\ link_as l = Some "style" /\ href l = h.

Definition is_stylesheet (h : string) (l : LinkDescriptor) : Prop :=
  rel l = "stylesheet" /\ href l = h.

(** ** The link component (app/components/ui/link.tsx) *)

(** A prop value: a string, or an element such as the children of a link. *)
Inductive PropValue : Type :=
  | PString (s : string)
  | PElement (name : string).

(** [clsx(...args)] on arguments that are strings or [undefined]: the truthy
    ones, joined by single spaces. *)
Definition clsx (args : list (option string)) : string :=
  foldl (fun str arg =>
           match arg with
           | Some x =>
               if decide (x = "") then str
               else if decide (str = "") then x
               else str +:+ " " +:+ x
           | None => str
           end) "" args.

Definition link_base_class : string :=
  "bg-[hsl(47.95deg_95.82%_53.14%)] p-1.5 font-bold text-black".

(** [props.className], typed [string | undefined]. *)
Definition className_of (allProps : gmap string PropValue) : option string :=
  match allProps !! "className" with
  | Some (PString s) => Some s
  | _ => None
  end.

(** [CustomLink({ className, ...props })]: the props handed to [Link]. The
    attributes are written in the order [prefetch], [className], [...props],
    so a prop of the caller wins over [prefetch]; [className] has been taken
    out of [props] by the destructuring. *)
Definition CustomLink (allProps : gmap string PropValue)
    : gmap string PropValue :=
  let className := className_of allProps in
  let props := delete "className" allProps in
  props ∪
  <["className" := PString (clsx [Some link_base_class; className])]>
    (<["prefetch" := PString "intent"]> ∅).

(** ** Notions used in the statements *)

(** [f] is the first fetcher of the snapshot whose [formAction] is ['/']. *)
Definition first_theme_fetcher (fetchers : list Fetcher) (f : Fetcher) : Prop :=
  exists pre post,
    fetchers = pre ++ f :: post /\
    Forall (fun g => formAction g <> Some "/") pre /\
    formAction f = Some "/".

(** No fetcher of the snapshot has ['/'] as its [formAction]. *)
Definition no_theme_fetcher (fetchers : list Fetcher) : Prop :=
  Forall (fun g => formAction g <> Some "/") fetchers.

(** The response [invariantResponse] throws in [action]. *)
Definition invalid_theme_response : Response :=
  {| status := 400; set_cookie := None;
     body := TextBody "Invalid theme received" |}.

(** The response [action] returns for a validated theme. *)
Definition theme_set_response (setTheme : ThemeMode -> string)
    (m : ThemeMode) : Response :=
  {| status := 200; set_cookie := Some (setTheme m);
     body := JsonResult (Some success) |}.

(** What [useOptimisticThemeMode] makes of the context of the chosen
    fetcher's form data: the parsed [theme] when there is no intent and the
    object passes the schema. *)
Definition context_theme (context : SubmissionContext) : option ThemeMode :=
  match ctx_intent context with
  | Some _ => None
  | None =>
      match ThemeFormSchema (ctx_payload context) with
      | Some v => Some (theme v)
      | None => None
      end
  end.

(** What is relied on of the form library, for any version of it:
    - a reserved field [__intent__] that holds a file makes the parser
      throw;
    - form data with the single entry [theme] gives the object with that
      one field and no intent. *)
Record conform_contract (conform_parse : FormData -> Js SubmissionContext)
    : Prop := {
  reserved_file_throws :
    forall formData filename,
      FormData_get "__intent__" formData = Some (EntryFile filename) ->
      exists e, conform_parse formData = Throw e;
  single_theme_entry :
    forall s,
      conform_parse [("theme", EntryString s)] =
      Return {| ctx_payload := {[ "theme" := FormString s ]};
                ctx_intent := None |}
}.

(** The value of an entry as a field of the object. *)
Definition entry_value (v : FormDataEntryValue) : FormValue :=
  match v with
  | EntryString s => FormString s
  | EntryFile filename => FormFile filename
  end.

(** The error of the form library for a reserved field that holds a file. *)
Definition reserved_name_error : Thrown :=
  Error "The input name __intent__ and __state__ are reserved".

(** One library step that meets [conform_contract], for the closed examples.
    It is exact on form data without reserved fields whose names are simple
    and distinct, and on a reserved field holding a file. It reads no JSON:
    a reserved field holding a string is taken as malformed, which the
    library does for a string that is not JSON only; of repeated names it
    keeps the first. *)
Definition sample_parse (formData : FormData) : Js SubmissionContext :=
  match FormData_get "__intent__" formData, FormData_get "__state__" formData with
  | Some (EntryFile _), _ | _, Some (EntryFile _) =>
      Throw reserved_name_error
  | Some (EntryString _), _ | _, Some (EntryString _) =>
      Throw (SyntaxError "Unexpected token in JSON")
  | None, None =>
      Return {| ctx_payload := list_to_map (prod_map id entry_value <$> formData);
                ctx_intent := None |}
  end.

(** What [useOptimisticThemeMode] returns once it has chosen the fetcher
    [f]: nothing without form data, otherwise what the context of the form
    data gives, and the exception of the library step if it throws. *)
Definition optimistic_of (conform_parse : FormData -> Js SubmissionContext)
    (f : Fetcher) : Js (option ThemeMode) :=
  match formData f with
  | Some fd => context ← conform_parse fd; Return (context_theme context)
  | None => Return None
  end.

(** ** Facts about the schema *)

Lemma z_enum_theme_string (m : ThemeMode) : z_enum (theme_string m) = Some m.
Proof. by destruct m. Qed.

Lemma z_enum_Some (s : string) (m : ThemeMode) :
  z_enum s = Some m <-> s = theme_string m.
Proof.
  split.
  - unfold z_enum. repeat case_decide; intros [= <-]; by subst.
  - intros ->. apply z_enum_theme_string.
Qed.

Lemma theme_string_literal (s : string) :
  (exists m, s = theme_string m) <-> s = "system" \/ s = "light" \/ s = "dark".
Proof.
  split.
  - intros [[] ->]; auto.
  - intros [-> | [-> | ->]]; [by exists system | by exists light | by exists dark].
Qed.

Lemma ThemeFormSchema_Some (payload : Payload) (v : ThemeForm) :
  ThemeFormSchema payload = Some v <->
  payload !! "theme" = Some (FormString (theme_string (theme v))).
Proof.
  unfold ThemeFormSchema. split.
  - destruct (payload !! "theme") as [[s | |] |]; try done.
    destruct (z_enum s) as [m |] eqn:Hs; [| done].
    intros [= <-]. apply z_enum_Some in Hs. by subst.
  - intros ->. by rewrite z_enum_theme_string; destruct v.
Qed.

Lemma ThemeFormSchema_None (payload : Payload) :
  ThemeFormSchema payload = None <->
  forall m, payload !! "theme" <> Some (FormString (theme_string m)).
Proof.
  split.
  - intros Hnone m Hm.
    assert (ThemeFormSchema payload = Some {| theme := m |}) as Hsome
      by by apply ThemeFormSchema_Some.
    congruence.
  - intros Hno. destruct (ThemeFormSchema payload) as [v |] eqn:Hv; [| done].
    apply ThemeFormSchema_Some in Hv. by destruct (Hno (theme v)).
Qed.

Lemma theme_string_inj (m1 m2 : ThemeMode) :
  theme_string m1 = theme_string m2 -> m1 = m2.
Proof. by destruct m1, m2. Qed.

(** ** Facts about [find] on a snapshot *)

(** [find] returns the first element that passes the test. *)
Lemma find_first {A : Type} (p : A -> bool) (l : list A) (x : A) :
  find p l = Some x <->
  exists pre post, l = pre ++ x :: post /\
                   Forall (fun y => p y = false) pre /\ p x = true.
Proof.
  split.
  - induction l as [| y l IH]; simpl; [done |].
    destruct (p y) eqn:Hy.
    + intros [= ->]. by exists [], l.
    + intros Hfind. destruct (IH Hfind) as (pre & post & -> & Hpre & Hx).
      exists (y :: pre), post. split_and!; [done | by constructor | done].
  - intros (pre & post & -> & Hpre & Hx).
    induction Hpre as [| y pre Hy _ IH]; simpl.
    + by rewrite Hx.
    + by rewrite Hy.
Qed.

Lemma find_nothing {A : Type} (p : A -> bool) (l : list A) :
  find p l = None <-> Forall (fun y => p y = false) l.
Proof.
  induction l as [| y l IH]; simpl.
  - split; [constructor | done].
  - destruct (p y) eqn:Hy.
    + split; [done | intros Hall; inversion Hall; congruence].
    + rewrite IH. split; [by constructor | by inversion 1].
Qed.

Lemma find_filter {A : Type} (p : A -> bool) (l : list A) :
  find p (List.filter p l) = find p l.
Proof.
  induction l as [| y l IH]; simpl; [done |].
  destruct (p y) eqn:Hy; simpl; [by rewrite Hy | done].
Qed.

Lemma is_theme_fetcher_false (l : list Fetcher) :
  Forall (fun g => is_theme_fetcher g = false) l <->
  Forall (fun g => formAction g <> Some "/") l.
Proof.
  apply Forall_iff. intros g. unfold is_theme_fetcher.
  by rewrite bool_decide_eq_false.
Qed.

Lemma find_theme_fetcher (fetchers : list Fetcher) (f : Fetcher) :
  find is_theme_fetcher fetchers = Some f <-> first_theme_fetcher fetchers f.
Proof.
  rewrite find_first. unfold first_theme_fetcher, is_theme_fetcher at 2.
  setoid_rewrite is_theme_fetcher_false.
  by setoid_rewrite bool_decide_eq_true.
Qed.

Lemma find_no_theme_fetcher (fetchers : list Fetcher) :
  find is_theme_fetcher fetchers = None <-> no_theme_fetcher fetchers.
Proof. rewrite find_nothing. apply is_theme_fetcher_false. Qed.

(** ** Facts about the submission *)

Lemma context_theme_Some (context : SubmissionContext) (m : ThemeMode) :
  context_theme context = Some m <->
  ctx_intent context = None /\
  ctx_payload context !! "theme" = Some (FormString (theme_string m)).
Proof.
  unfold context_theme. destruct (ctx_intent context) as [i |].
  - split; [done | by intros [? _]].
  - destruct (ThemeFormSchema (ctx_payload context)) as [v |] eqn:Hv.
    + apply ThemeFormSchema_Some in Hv. split.
      * by intros [= <-].
      * intros [_ Hm]. rewrite Hv in Hm. simplify_eq.
        f_equal. by apply theme_string_inj.
    + rewrite ThemeFormSchema_None in Hv. split; [done |].
      intros [_ Hm]. by destruct (Hv m).
Qed.

Lemma context_theme_None (context : SubmissionContext) :
  context_theme context = None <->
  ctx_intent context <> None \/
  forall m, ctx_payload context !! "theme" <> Some (FormString (theme_string m)).
Proof.
  split.
  - intros Hnone. destruct (ctx_intent context) as [i |] eqn:Hi; [by left |].
    right. intros m Hm.
    assert (context_theme context = Some m) as Hsome
      by by apply context_theme_Some.
    congruence.
  - intros Hbad. destruct (context_theme context) as [m |] eqn:Hm; [| done].
    apply context_theme_Some in Hm as [Hi Hm].
    destruct Hbad as [Hbad | Hbad]; [done | by destruct (Hbad m)].
Qed.

(** The status of a submission is ['success'] exactly when the context
    yields a theme, and then [value.theme] is that theme. *)
Lemma createSubmission_status (context : SubmissionContext) :
  match context_theme context with
  | Some m =>
      createSubmission context (ThemeFormSchema (ctx_payload context)) =
      {| sub_status := Some success; sub_value := Some {| theme := m |} |}
  | None =>
      sub_status
        (createSubmission context (ThemeFormSchema (ctx_payload context)))
      <> Some success
  end.
Proof.
  unfold context_theme, createSubmission.
  destruct (ctx_intent context) as [i |]; [done |].
  by destruct (ThemeFormSchema (ctx_payload context)) as [[m] |].
Qed.

Section ConformFacts.

Variable conform_parse : FormData -> Js SubmissionContext.

Lemma parseWithZod_returns (fd : FormData) (context : SubmissionContext) :
  conform_parse fd = Return context ->
  parseWithZod conform_parse ThemeFormSchema fd =
  Return (createSubmission context (ThemeFormSchema (ctx_payload context))).
Proof. intros Hctx. unfold parseWithZod. by rewrite Hctx. Qed.

Lemma parseWithZod_throws (fd : FormData) (e : Thrown) :
  conform_parse fd = Throw e <->
  parseWithZod conform_parse ThemeFormSchema fd = Throw e.
Proof.
  unfold parseWithZod.
  destruct (conform_parse fd) as [context | e']; simpl; split; congruence.
Qed.

Lemma useOptimisticThemeMode_find (fetchers : list Fetcher) :
  useOptimisticThemeMode conform_parse fetchers =
  match find is_theme_fetcher fetchers with
  | Some f => optimistic_of conform_parse f
  | None => Return None
  end.
Proof.
  unfold useOptimisticThemeMode, optimistic_of.
  destruct (find is_theme_fetcher fetchers) as [f |]; [| done].
  destruct (formData f) as [fd |]; [| done].
  unfold parseWithZod.
  destruct (conform_parse fd) as [context | e]; [| done]. simpl.
  pose proof (createSubmission_status context) as Hstatus.
  destruct (context_theme context) as [m |].
  - by rewrite Hstatus.
  - by rewrite bool_decide_eq_false_2.
Qed.

Lemma useOptimisticThemeMode_first (fetchers : list Fetcher) (f : Fetcher) :
  first_theme_fetcher fetchers f ->
  useOptimisticThemeMode conform_parse fetchers = optimistic_of conform_parse f.
Proof.
  intros Hf. apply find_theme_fetcher in Hf.
  by rewrite useOptimisticThemeMode_find, Hf.
Qed.

Lemma useOptimisticThemeMode_none (fetchers : list Fetcher) :
  no_theme_fetcher fetchers ->
  useOptimisticThemeMode conform_parse fetchers = Return None.
Proof.
  intros Hf. apply find_no_theme_fetcher in Hf.
  by rewrite useOptimisticThemeMode_find, Hf.
Qed.

(** The hook either returns or throws. *)
Lemma useOptimisticThemeMode_cases (fetchers : list Fetcher) :
  (exists optimisticMode,
     useOptimisticThemeMode conform_parse fetchers = Return optimisticMode) \/
  (exists e, useOptimisticThemeMode conform_parse fetchers = Throw e).
Proof.
  destruct (useOptimisticThemeMode conform_parse fetchers) as [o | e]; eauto.
Qed.

(** [useTheme] in terms of the optimistic value. *)
Lemma useTheme_optimistic (hints : Hints) (requestInfo : RequestInfo)
    (fetchers : list Fetcher) (optimisticMode : option ThemeMode) :
  useOptimisticThemeMode conform_parse fetchers = Return optimisticMode ->
  useTheme conform_parse hints requestInfo fetchers =
  Return (match optimisticMode with
          | Some m => if decide (m = system) then hints_theme hints else m
          | None =>
              match userPrefs_theme (userPrefs requestInfo) with
              | Some t => t
              | None => hints_theme hints
              end
          end).
Proof.
  intros Hopt. unfold useTheme. rewrite Hopt. simpl.
  by destruct optimisticMode.
Qed.

(** [useTheme] throws exactly what the hook it calls throws. *)
Lemma useTheme_throws (hints : Hints) (requestInfo : RequestInfo)
    (fetchers : list Fetcher) (e : Thrown) :
  useTheme conform_parse hints requestInfo fetchers = Throw e <->
  useOptimisticThemeMode conform_parse fetchers = Throw e.
Proof.
  unfold useTheme.
  destruct (useOptimisticThemeMode conform_parse fetchers) as [[m |] | e'];
    simpl; split; congruence.
Qed.

(** What [action] does on form data, by what the library step makes of
    it. *)
Lemma action_outcome (setTheme : ThemeMode -> string) (fd : FormData) :
  action conform_parse setTheme fd =
  match conform_parse fd with
  | Return context =>
      match context_theme context with
      | Some m => Return (theme_set_response setTheme m)
      | None => Throw (ThrownResponse invalid_theme_response)
      end
  | Throw e => Throw e
  end.
Proof.
  unfold action, parseWithZod.
  destruct (conform_parse fd) as [context | e]; [| done]. simpl.
  pose proof (createSubmission_status context) as Hstatus.
  destruct (context_theme context) as [m |].
  - by rewrite Hstatus.
  - by rewrite bool_decide_eq_false_2.
Qed.

(** What [ThemeSwitch] renders, in terms of the optimistic value. *)
Lemma ThemeSwitch_optimistic (fetchers : list Fetcher)
    (userPreference optimisticMode : option ThemeMode) :
  useOptimisticThemeMode conform_parse fetchers = Return optimisticMode ->
  exists form,
    ThemeSwitch conform_parse fetchers userPreference = Return form /\
    form_mode form = default (default system userPreference) optimisticMode /\
    form_inputs form = [("theme", theme_string (nextMode (form_mode form)))].
Proof.
  intros Hopt. unfold ThemeSwitch. rewrite Hopt. simpl.
  eexists. split; [done |]. simpl.
  by destruct optimisticMode, userPreference.
Qed.

(** A rendered [ThemeSwitch] comes from a hook that returned. *)
Lemma ThemeSwitch_inv (fetchers : list Fetcher)
    (userPreference : option ThemeMode) (form : ThemeSwitchForm) :
  ThemeSwitch conform_parse fetchers userPreference = Return form ->
  exists optimisticMode,
    useOptimisticThemeMode conform_parse fetchers = Return optimisticMode /\
    form_mode form = default (default system userPreference) optimisticMode /\
    form = {| form_mode := form_mode form;
              form_method := "POST";
              form_inputs :=
                [("theme", theme_string (nextMode (form_mode form)))];
              form_button := modeLabel (form_mode form) |}.
Proof.
  unfold ThemeSwitch.
  destruct (useOptimisticThemeMode conform_parse fetchers) as [o | e];
    simpl; [| done].
  intros [= <-]. exists o. simpl. split; [done |].
  by destruct o, userPreference.
Qed.

End ConformFacts.

Lemma submit_theme (form : ThemeSwitchForm) (value : string) :
  form_inputs form = [("theme", value)] ->
  submit form = [("theme", EntryString value)].
Proof. intros Hinputs. unfold submit. by rewrite Hinputs. Qed.

(** The sample library step meets the contract. *)
Lemma sample_parse_contract : conform_contract sample_parse.
Proof.
  split.
  - intros fd filename Hintent. unfold sample_parse. rewrite Hintent. eauto.
  - done.
Qed.

(** A form rendered by [ThemeSwitch] submits the single entry [theme], which
    a library step meeting the contract turns into a context whose theme is
    [nextMode] of the mode shown. *)
Lemma submitted_context (conform_parse : FormData -> Js SubmissionContext)
    (mode : ThemeMode) (form : ThemeSwitchForm) :
  conform_contract conform_parse ->
  form_inputs form = [("theme", theme_string mode)] ->
  exists context,
    conform_parse (submit form) = Return context /\
    context_theme context = Some mode.
Proof.
  intros [_ Hsingle] Hinputs. rewrite (submit_theme _ _ Hinputs), Hsingle.
  eexists. split; [done |]. apply context_theme_Some. simpl.
  split; [done |]. apply lookup_singleton_eq.
Qed.

(** ** The worked cases of the resolver *)

Example useTheme_optimistic_light_wins :
  useTheme sample_parse
           {| hints_theme := dark |}
           {| userPrefs := {| userPrefs_theme := Some dark |} |}
           [ {| formAction := Some "/";
                formData := Some [("theme", EntryString "light")] |} ]
  = Return light.
Proof. vm_compute. reflexivity. Qed.

Example useTheme_stored_wins_over_hint :
  useTheme sample_parse
           {| hints_theme := light |}
           {| userPrefs := {| userPrefs_theme := Some dark |} |}
           []
  = Return dark.
Proof. reflexivity. Qed.

Example useTheme_hint_is_last :
  useTheme sample_parse
           {| hints_theme := light |}
           {| userPrefs := {| userPrefs_theme := None |} |}
           [ {| formAction := Some "/teams"; formData := None |} ]
  = Return light.
Proof. vm_compute. reflexivity. Qed.

(** ** The claims *)

(** C1: [useTheme] obeys the precedence of the resolver. Whatever optimistic
    value the hook returns: when it is [system] the result is the client
    hint, when it is [light] or [dark] the result is that value, and when
    there is none the result is the stored preference if present and the
    client hint otherwise. *)
Theorem useTheme_precedence (conform_parse : FormData -> Js SubmissionContext)
    (hints : Hints) (requestInfo : RequestInfo) (fetchers : list Fetcher)
    (optimisticMode : option ThemeMode) :
  useOptimisticThemeMode conform_parse fetchers = Return optimisticMode ->
  (optimisticMode = Some system ->
   useTheme conform_parse hints requestInfo fetchers =
   Return (hints_theme hints)) /\
  (optimisticMode = Some light ->
   useTheme conform_parse hints requestInfo fetchers = Return light) /\
  (optimisticMode = Some dark ->
   useTheme conform_parse hints requestInfo fetchers = Return dark) /\
  (optimisticMode = None ->
   forall t, userPrefs_theme (userPrefs requestInfo) = Some t ->
             useTheme conform_parse hints requestInfo fetchers = Return t) /\
  (optimisticMode = None ->
   userPrefs_theme (userPrefs requestInfo) = None ->
   useTheme conform_parse hints requestInfo fetchers =
   Return (hints_theme hints)).
Proof.
  intros Ho. rewrite (useTheme_optimistic _ _ _ _ _ Ho).
  split_and!; intros ->; try done.
  - by intros t ->.
  - by intros ->.
Qed.

Lemma useTheme_precedence_witness :
  (Some system = Some system ->
   useTheme sample_parse
            {| hints_theme := dark |}
            {| userPrefs := {| userPrefs_theme := Some light |} |}
            [ {| formAction := Some "/";
                 formData := Some [("theme", EntryString "system")] |} ]
   = Return dark) /\
  (Some system = Some light ->
   useTheme sample_parse
            {| hints_theme := dark |}
            {| userPrefs := {| userPrefs_theme := Some light |} |}
            [ {| formAction := Some "/";
                 formData := Some [("theme", EntryString "system")] |} ]
   = Return light) /\
  (Some system = Some dark ->
   useTheme sample_parse
            {| hints_theme := dark |}
            {| userPrefs := {| userPrefs_theme := Some light |} |}
            [ {| formAction := Some "/";
                 formData := Some [("theme", EntryString "system")] |} ]
   = Return dark) /\
  (Some system = None ->
   forall t, Some light = Some t ->
             useTheme sample_parse
                      {| hints_theme := dark |}
                      {| userPrefs := {| userPrefs_theme := Some light |} |}
                      [ {| formAction := Some "/";
                           formData := Some [("theme", EntryString "system")] |} ]
             = Return t) /\
  (Some system = None ->
   Some light = None ->
   useTheme sample_parse
            {| hints_theme := dark |}
            {| userPrefs := {| userPrefs_theme := Some light |} |}
            [ {| formAction := Some "/";
                 formData := Some [("theme", EntryString "system")] |} ]
   = Return dark).
Proof.
  apply (useTheme_precedence sample_parse
           {| hints_theme := dark |}
           {| userPrefs := {| userPrefs_theme := Some light |} |}
           [ {| formAction := Some "/";
                formData := Some [("theme", EntryString "system")] |} ]
           (Some system)).
  vm_compute. reflexivity.
Defined.

(** C2, as stated, fails: with no optimistic value, the stored preference
    [system] and the client hint [light], [useTheme] returns [system], which
    is not renderable; the snapshot is empty, so this is so for every
    library step. *)
Lemma useTheme_stored_system :
  renderable (hints_theme {| hints_theme := light |}) /\
  useTheme sample_parse
           {| hints_theme := light |}
           {| userPrefs := {| userPrefs_theme := Some system |} |}
           [] = Return system /\
  ~ renderable system /\
  (forall conform_parse,
     useTheme conform_parse
              {| hints_theme := light |}
              {| userPrefs := {| userPrefs_theme := Some system |} |}
              [] = Return system).
Proof.
  split_and!; [by left | done | by intros [? | ?] | done].
Qed.

(** C2, amended: whenever the hook returns and the client hint is [light]
    or [dark], [useTheme] returns a value, and that value is [light] or
    [dark] except exactly when no optimistic value is in flight and the
    stored preference is [system]: without an optimistic value a stored
    preference is returned as it is. *)
Theorem useTheme_renderable (conform_parse : FormData -> Js SubmissionContext)
    (hints : Hints) (requestInfo : RequestInfo) (fetchers : list Fetcher)
    (optimisticMode : option ThemeMode) :
  useOptimisticThemeMode conform_parse fetchers = Return optimisticMode ->
  renderable (hints_theme hints) ->
  exists m,
    useTheme conform_parse hints requestInfo fetchers = Return m /\
    (renderable m <->
     ~ (optimisticMode = None /\
        userPrefs_theme (userPrefs requestInfo) = Some system)) /\
    (optimisticMode = None ->
     forall t, userPrefs_theme (userPrefs requestInfo) = Some t -> m = t).
Proof.
  intros Ho Hhint. rewrite (useTheme_optimistic _ _ _ _ _ Ho).
  eexists. split; [done |]. unfold renderable in *.
  destruct optimisticMode as [[] |]; simpl.
  - split; [| done]. split; [by intros _ [? _] | done].
  - split; [| done]. split; [by intros _ [? _] | by left].
  - split; [| done]. split; [by intros _ [? _] | by right].
  - split; [| by intros _ t ->].
    destruct (userPrefs_theme (userPrefs requestInfo)) as [[] |].
    + split; [by intros [? | ?] | intros Hno; by destruct Hno].
    + split; [by intros _ [_ ?] | by left].
    + split; [by intros _ [_ ?] | by right].
    + split; [by intros _ [_ ?] | done].
Qed.

Lemma useTheme_renderable_witness :
  exists m,
    useTheme sample_parse
             {| hints_theme := dark |}
             {| userPrefs := {| userPrefs_theme := Some system |} |}
             [ {| formAction := Some "/";
                  formData := Some [("theme", EntryString "system")] |} ]
    = Return m /\
    (renderable m <->
     ~ (Some system = None /\
        userPrefs_theme
          (userPrefs {| userPrefs := {| userPrefs_theme := Some system |} |})
        = Some system)) /\
    (Some system = None ->
     forall t,
       userPrefs_theme
         (userPrefs {| userPrefs := {| userPrefs_theme := Some system |} |})
       = Some t -> m = t).
Proof.
  apply (useTheme_renderable sample_parse
           {| hints_theme := dark |}
           {| userPrefs := {| userPrefs_theme := Some system |} |}
           [ {| formAction := Some "/";
                formData := Some [("theme", EntryString "system")] |} ]
           (Some system)).
  - vm_compute. reflexivity.
  - right. reflexivity.
Defined.

(** C3: [nextMode] is the cycle system -> light -> dark -> system: applied
    three times it gives its argument back, and neither one nor two
    applications do. *)
Theorem nextMode_cycle :
  nextMode system = light /\ nextMode light = dark /\ nextMode dark = system /\
  forall m : ThemeMode,
    nextMode (nextMode (nextMode m)) = m /\
    nextMode m <> m /\
    nextMode (nextMode m) <> m.
Proof.
  split_and!; try done.
  by intros [].
Qed.

(** C4, as stated, fails: the first fetcher for ['/'] carries [theme] =
    [light], which passes the schema, and a reserved field holding a file;
    the hook neither returns [light] nor nothing, it throws the exception of
    the parser. This is so for every library step meeting the contract. *)
Lemma useOptimisticThemeMode_reserved_field_throws :
  first_theme_fetcher
    [ {| formAction := Some "/";
         formData := Some [("theme", EntryString "light");
                           ("__intent__", EntryFile "intent.bin")] |} ]
    {| formAction := Some "/";
       formData := Some [("theme", EntryString "light");
                         ("__intent__", EntryFile "intent.bin")] |} /\
  FormData_get "theme" [("theme", EntryString "light");
                        ("__intent__", EntryFile "intent.bin")]
    = Some (EntryString "light") /\
  useOptimisticThemeMode sample_parse
    [ {| formAction := Some "/";
         formData := Some [("theme", EntryString "light");
                           ("__intent__", EntryFile "intent.bin")] |} ]
    = Throw reserved_name_error /\
  (forall conform_parse,
     conform_contract conform_parse ->
     exists e,
       useOptimisticThemeMode conform_parse
         [ {| formAction := Some "/";
              formData := Some [("theme", EntryString "light");
                                ("__intent__", EntryFile "intent.bin")] |} ]
       = Throw e).
Proof.
  split_and!; [by exists [], [] | done | done |].
  intros conform_parse [Hreserved _].
  destruct (Hreserved [("theme", EntryString "light");
                       ("__intent__", EntryFile "intent.bin")] "intent.bin")
    as [e He]; [done |].
  exists e. unfold useOptimisticThemeMode, parseWithZod. simpl. by rewrite He.
Qed.

(** C4, amended: on every snapshot, [useOptimisticThemeMode] either finds no
    fetcher whose [formAction] is ['/'] and returns nothing, or takes the
    first such fetcher and no other. Without form data it returns nothing.
    With form data it calls [parseWithZod]: if that throws, the hook throws
    the same; if the submission has the status ['success'] (no intent, and
    the object passes [ThemeFormSchema]) it returns the parsed [theme]; for
    any other status it returns nothing. *)
Theorem useOptimisticThemeMode_first_match
    (conform_parse : FormData -> Js SubmissionContext)
    (fetchers : list Fetcher) :
  (no_theme_fetcher fetchers /\
   useOptimisticThemeMode conform_parse fetchers = Return None) \/
  (exists f,
     first_theme_fetcher fetchers f /\
     ((formData f = None /\
       useOptimisticThemeMode conform_parse fetchers = Return None) \/
      (exists fd e,
         formData f = Some fd /\
         parseWithZod conform_parse ThemeFormSchema fd = Throw e /\
         useOptimisticThemeMode conform_parse fetchers = Throw e) \/
      (exists fd context submission,
         formData f = Some fd /\
         conform_parse fd = Return context /\
         parseWithZod conform_parse ThemeFormSchema fd = Return submission /\
         ((sub_status submission <> Some success /\
           (ctx_intent context <> None \/
            ThemeFormSchema (ctx_payload context) = None) /\
           useOptimisticThemeMode conform_parse fetchers = Return None) \/
          (exists v,
             sub_status submission = Some success /\
             ctx_intent context = None /\
             ThemeFormSchema (ctx_payload context) = Some v /\
             useOptimisticThemeMode conform_parse fetchers =
             Return (Some (theme v))))))).
Proof.
  destruct (find is_theme_fetcher fetchers) as [f |] eqn:Hfind.
  - right. exists f. apply find_theme_fetcher in Hfind. split; [done |].
    rewrite (useOptimisticThemeMode_first _ _ _ Hfind). unfold optimistic_of.
    destruct (formData f) as [fd |]; [| by left].
    right. destruct (conform_parse fd) as [context | e] eqn:Hctx.
    + right. exists fd, context. eexists. split; [done |]. split; [done |].
      split; [by apply parseWithZod_returns |]. simpl.
      unfold context_theme, createSubmission.
      destruct (ctx_intent context) as [i |].
      * left. split_and!; [done | by left | done].
      * destruct (ThemeFormSchema (ctx_payload context)) as [v |].
        -- right. by exists v.
        -- left. split_and!; [done | by right | done].
    + left. exists fd, e. split_and!; [done | | done].
      by apply parseWithZod_throws.
  - left. apply find_no_theme_fetcher in Hfind.
    by rewrite (useOptimisticThemeMode_none _ _ Hfind).
Qed.

(** C5, as stated, fails: the first fetcher for ['/'] carries a malformed
    payload ([theme] = [blue] and a reserved field holding a file), and
    [useTheme] does not fall back to the stored preference: it throws the
    exception of the parser. This is so for every library step meeting the
    contract. *)
Lemma useTheme_malformed_reserved_field_throws :
  useTheme sample_parse
    {| hints_theme := light |}
    {| userPrefs := {| userPrefs_theme := Some dark |} |}
    [ {| formAction := Some "/";
         formData := Some [("theme", EntryString "blue");
                           ("__intent__", EntryFile "intent.bin")] |} ]
    = Throw reserved_name_error /\
  useTheme sample_parse
    {| hints_theme := light |}
    {| userPrefs := {| userPrefs_theme := Some dark |} |}
    [] = Return dark /\
  (forall conform_parse,
     conform_contract conform_parse ->
     exists e,
       useTheme conform_parse
         {| hints_theme := light |}
         {| userPrefs := {| userPrefs_theme := Some dark |} |}
         [ {| formAction := Some "/";
              formData := Some [("theme", EntryString "blue");
                                ("__intent__", EntryFile "intent.bin")] |} ]
       = Throw e).
Proof.
  split_and!; [done | done |].
  intros conform_parse [Hreserved _].
  destruct (Hreserved [("theme", EntryString "blue");
                       ("__intent__", EntryFile "intent.bin")] "intent.bin")
    as [e He]; [done |].
  exists e. apply useTheme_throws.
  unfold useOptimisticThemeMode, parseWithZod. simpl. by rewrite He.
Qed.

(** C5, amended: when the first fetcher for ['/'] has no form data, or
    [parseWithZod] returns for its form data a submission whose status is
    not ['success'], [useTheme] returns what it returns on a snapshot with
    no theme fetcher at all: the stored preference when present, otherwise
    the client hint. When [parseWithZod] throws on that form data,
    [useTheme] throws the same exception. *)
Theorem useTheme_malformed_payload
    (conform_parse : FormData -> Js SubmissionContext)
    (hints : Hints) (requestInfo : RequestInfo)
    (fetchers idle : list Fetcher) (f : Fetcher) :
  first_theme_fetcher fetchers f ->
  no_theme_fetcher idle ->
  (formData f = None \/
   (exists fd submission,
      formData f = Some fd /\
      parseWithZod conform_parse ThemeFormSchema fd = Return submission /\
      sub_status submission <> Some success) ->
   useTheme conform_parse hints requestInfo fetchers =
   useTheme conform_parse hints requestInfo idle /\
   useTheme conform_parse hints requestInfo fetchers =
   Return (match userPrefs_theme (userPrefs requestInfo) with
           | Some t => t
           | None => hints_theme hints
           end)) /\
  (forall fd e,
     formData f = Some fd ->
     parseWithZod conform_parse ThemeFormSchema fd = Throw e ->
     useTheme conform_parse hints requestInfo fetchers = Throw e).
Proof.
  intros Hf Hidle. split.
  - intros Hbad.
    assert (optimistic_of conform_parse f = Return None) as Hnone.
    { unfold optimistic_of.
      destruct Hbad as [-> | (fd & submission & -> & Hsub & Hstatus)]; [done |].
      unfold parseWithZod in Hsub.
      destruct (conform_parse fd) as [context | e]; simpl in *; [| done].
      injection Hsub as <-.
      pose proof (createSubmission_status context) as Hctx.
      destruct (context_theme context) as [m |]; [| done].
      rewrite Hctx in Hstatus. by destruct Hstatus. }
    rewrite (useTheme_optimistic _ _ _ fetchers None),
            (useTheme_optimistic _ _ _ idle None); [done | |].
    + by apply useOptimisticThemeMode_none.
    + by rewrite (useOptimisticThemeMode_first _ _ _ Hf).
  - intros fd e Hfd He. apply useTheme_throws.
    rewrite (useOptimisticThemeMode_first _ _ _ Hf). unfold optimistic_of.
    apply parseWithZod_throws in He. by rewrite Hfd, He.
Qed.

Lemma useTheme_malformed_payload_witness :
  useTheme sample_parse
           {| hints_theme := light |}
           {| userPrefs := {| userPrefs_theme := Some dark |} |}
           [ {| formAction := None; formData := None |};
             {| formAction := Some "/";
                formData := Some [("theme", EntryString "blue")] |};
             {| formAction := Some "/";
                formData := Some [("theme", EntryString "light")] |} ]
  = useTheme sample_parse
             {| hints_theme := light |}
             {| userPrefs := {| userPrefs_theme := Some dark |} |}
             [] /\
  useTheme sample_parse
           {| hints_theme := light |}
           {| userPrefs := {| userPrefs_theme := Some dark |} |}
           [ {| formAction := None; formData := None |};
             {| formAction := Some "/";
                formData := Some [("theme", EntryString "blue")] |};
             {| formAction := Some "/";
                formData := Some [("theme", EntryString "light")] |} ]
  = Return dark.
Proof.
  apply (useTheme_malformed_payload sample_parse
           {| hints_theme := light |}
           {| userPrefs := {| userPrefs_theme := Some dark |} |}
           [ {| formAction := None; formData := None |};
             {| formAction := Some "/";
                formData := Some [("theme", EntryString "blue")] |};
             {| formAction := Some "/";
                formData := Some [("theme", EntryString "light")] |} ]
           []
           {| formAction := Some "/";
              formData := Some [("theme", EntryString "blue")] |}).
  - exists [ {| formAction := None; formData := None |} ],
           [ {| formAction := Some "/";
                formData := Some [("theme", EntryString "light")] |} ].
    split; [reflexivity |]. split; [| reflexivity].
    constructor; [discriminate | constructor].
  - constructor.
  - right. exists [("theme", EntryString "blue")]. eexists.
    split; [reflexivity |]. split; [vm_compute; reflexivity |].
    simpl. discriminate.
Defined.

(** C6: with the optimistic value [system], the stored preference [dark] and
    the client hint [light], [useTheme] returns [light]. *)
Theorem useTheme_optimistic_system_uses_hint
    (conform_parse : FormData -> Js SubmissionContext)
    (fetchers : list Fetcher) :
  useOptimisticThemeMode conform_parse fetchers = Return (Some system) ->
  useTheme conform_parse
           {| hints_theme := light |}
           {| userPrefs := {| userPrefs_theme := Some dark |} |}
           fetchers = Return light.
Proof. intros Hopt. by rewrite (useTheme_optimistic _ _ _ _ _ Hopt). Qed.

Lemma useTheme_optimistic_system_uses_hint_witness :
  useTheme sample_parse
           {| hints_theme := light |}
           {| userPrefs := {| userPrefs_theme := Some dark |} |}
           [ {| formAction := Some "/";
                formData := Some [("theme", EntryString "system")] |} ]
  = Return light.
Proof.
  apply useTheme_optimistic_system_uses_hint. vm_compute. reflexivity.
Defined.

(** C7, as stated, fails: on a snapshot whose fetcher for ['/'] carries a
    reserved field holding a file, both hooks throw the exception of the
    parser. This is so for every library step meeting the contract. *)
Lemma resolver_throws_on_reserved_field :
  useOptimisticThemeMode sample_parse
    [ {| formAction := Some "/";
         formData := Some [("__intent__", EntryFile "intent.bin");
                           ("theme", EntryString "dark")] |} ]
    = Throw reserved_name_error /\
  useTheme sample_parse
    {| hints_theme := light |}
    {| userPrefs := {| userPrefs_theme := None |} |}
    [ {| formAction := Some "/";
         formData := Some [("__intent__", EntryFile "intent.bin");
                           ("theme", EntryString "dark")] |} ]
    = Throw reserved_name_error /\
  (forall conform_parse hints requestInfo,
     conform_contract conform_parse ->
     exists e,
       useOptimisticThemeMode conform_parse
         [ {| formAction := Some "/";
              formData := Some [("__intent__", EntryFile "intent.bin");
                                ("theme", EntryString "dark")] |} ]
       = Throw e /\
       useTheme conform_parse hints requestInfo
         [ {| formAction := Some "/";
              formData := Some [("__intent__", EntryFile "intent.bin");
                                ("theme", EntryString "dark")] |} ]
       = Throw e).
Proof.
  split_and!; [done | done |].
  intros conform_parse hints requestInfo [Hreserved _].
  destruct (Hreserved [("__intent__", EntryFile "intent.bin");
                       ("theme", EntryString "dark")] "intent.bin")
    as [e He]; [done |].
  exists e.
  assert (useOptimisticThemeMode conform_parse
            [ {| formAction := Some "/";
                 formData := Some [("__intent__", EntryFile "intent.bin");
                                   ("theme", EntryString "dark")] |} ]
          = Throw e) as Hhook
    by (unfold useOptimisticThemeMode, parseWithZod; simpl; by rewrite He).
  split; [done |]. by apply useTheme_throws.
Qed.

(** C7, amended: the hooks add no failure of their own. Each throws exactly
    when the library step throws on the form data of the first fetcher for
    ['/'], and then throws that exception; [useTheme] throws exactly what
    [useOptimisticThemeMode] throws; on every other snapshot both return,
    a mode or nothing. The read of [submission.value.theme] never throws:
    it is only reached behind the status test. *)
Theorem resolver_throws_iff_parse_throws
    (conform_parse : FormData -> Js SubmissionContext)
    (hints : Hints) (requestInfo : RequestInfo) (fetchers : list Fetcher) :
  (forall e,
     useOptimisticThemeMode conform_parse fetchers = Throw e <->
     exists f fd,
       first_theme_fetcher fetchers f /\
       formData f = Some fd /\
       conform_parse fd = Throw e) /\
  (forall e,
     useTheme conform_parse hints requestInfo fetchers = Throw e <->
     useOptimisticThemeMode conform_parse fetchers = Throw e) /\
  ((forall f fd e,
      first_theme_fetcher fetchers f ->
      formData f = Some fd ->
      conform_parse fd <> Throw e) ->
   exists optimisticMode m,
     useOptimisticThemeMode conform_parse fetchers = Return optimisticMode /\
     useTheme conform_parse hints requestInfo fetchers = Return m).
Proof.
  assert (forall e,
            useOptimisticThemeMode conform_parse fetchers = Throw e <->
            exists f fd,
              first_theme_fetcher fetchers f /\
              formData f = Some fd /\
              conform_parse fd = Throw e) as Hthrow.
  { intros e. rewrite useOptimisticThemeMode_find. split.
    - destruct (find is_theme_fetcher fetchers) as [f |] eqn:Hfind; [| done].
      apply find_theme_fetcher in Hfind. unfold optimistic_of.
      destruct (formData f) as [fd |] eqn:Hfd; [| done].
      destruct (conform_parse fd) as [context | e'] eqn:Hctx; [done |].
      intros [= ->]. by exists f, fd.
    - intros (f & fd & Hf & Hfd & Hctx). apply find_theme_fetcher in Hf.
      rewrite Hf. unfold optimistic_of. by rewrite Hfd, Hctx. }
  split_and!; [done | apply useTheme_throws |].
  intros Hreturns.
  destruct (useOptimisticThemeMode_cases conform_parse fetchers)
    as [[o Ho] | [e He]].
  - exists o. eexists. split; [done |]. by apply useTheme_optimistic.
  - apply Hthrow in He as (f & fd & Hf & Hfd & Hctx).
    by destruct (Hreturns f fd e).
Qed.

(** C8, as stated, fails: the form data holds the field [theme] with the
    value [dark], one of the three, and yet [action] does not accept it: a
    reserved field holding a file makes the parser throw before validation.
    This is so for every library step meeting the contract. *)
Lemma action_valid_theme_not_accepted :
  FormData_get "theme" [("theme", EntryString "dark");
                        ("__intent__", EntryFile "intent.bin")]
    = Some (EntryString "dark") /\
  action sample_parse theme_string
    [("theme", EntryString "dark"); ("__intent__", EntryFile "intent.bin")]
    = Throw reserved_name_error /\
  (forall conform_parse setTheme,
     conform_contract conform_parse ->
     forall r,
       action conform_parse setTheme
         [("theme", EntryString "dark");
          ("__intent__", EntryFile "intent.bin")]
       <> Return r).
Proof.
  split_and!; [done | done |].
  intros conform_parse setTheme [Hreserved _] r.
  destruct (Hreserved [("theme", EntryString "dark");
                       ("__intent__", EntryFile "intent.bin")] "intent.bin")
    as [e He]; [done |].
  by rewrite action_outcome, He.
Qed.

(** C8, amended: [action] accepts form data, answering 200 with the cookie
    of the validated value, exactly when the parser returns an object with
    no intent whose field [theme] is one of the strings [system], [light],
    [dark]; when the parser returns anything else (an intent, or an object
    failing the schema) [action] throws the 400 response "Invalid theme
    received" and sets no cookie; when the parser throws, [action] throws
    the same exception. Form data with the single entry [theme] holding one
    of the three strings is accepted. *)
Theorem action_accepts_iff_success
    (conform_parse : FormData -> Js SubmissionContext)
    (setTheme : ThemeMode -> string) (formData : FormData) :
  (forall r,
     action conform_parse setTheme formData = Return r <->
     exists context s m,
       conform_parse formData = Return context /\
       ctx_intent context = None /\
       ctx_payload context !! "theme" = Some (FormString s) /\
       (s = "system" \/ s = "light" \/ s = "dark") /\
       s = theme_string m /\
       r = theme_set_response setTheme m) /\
  (forall context,
     conform_parse formData = Return context ->
     ctx_intent context <> None \/
     (forall m, ctx_payload context !! "theme" <>
                Some (FormString (theme_string m))) ->
     action conform_parse setTheme formData =
     Throw (ThrownResponse invalid_theme_response)) /\
  (forall e,
     conform_parse formData = Throw e ->
     action conform_parse setTheme formData = Throw e) /\
  (conform_contract conform_parse ->
   forall m,
     action conform_parse setTheme [("theme", EntryString (theme_string m))] =
     Return (theme_set_response setTheme m)).
Proof.
  split_and!.
  - intros r. rewrite action_outcome. split.
    + destruct (conform_parse formData) as [context | e]; [| done].
      destruct (context_theme context) as [m |] eqn:Hm; [| done].
      apply context_theme_Some in Hm as [Hintent Htheme].
      intros [= <-]. exists context, (theme_string m), m.
      split_and!; try done. apply theme_string_literal. by exists m.
    + intros (context & s & m & -> & Hintent & Htheme & _ & -> & ->).
      assert (context_theme context = Some m) as ->
        by by apply context_theme_Some.
      done.
  - intros context Hctx Hbad. rewrite action_outcome, Hctx.
    apply context_theme_None in Hbad. by rewrite Hbad.
  - intros e He. by rewrite action_outcome, He.
  - intros [_ Hsingle] m. rewrite action_outcome, Hsingle.
    assert (context_theme
              {| ctx_payload := {[ "theme" := FormString (theme_string m) ]};
                 ctx_intent := None |} = Some m) as ->; [| done].
    apply context_theme_Some. split; [done |]. apply lookup_singleton_eq.
Qed.

(** C9: every form rendered by [ThemeSwitch] submits the single entry
    [theme] = [nextMode mode], a member of the enumeration; [action] accepts
    that form data and does not throw its "Invalid theme received" response
    on it. What is used of the form library is that it reads form data with
    that single entry as the object with that field. *)
Theorem ThemeSwitch_submission_accepted
    (conform_parse : FormData -> Js SubmissionContext)
    (setTheme : ThemeMode -> string)
    (fetchers : list Fetcher) (userPreference : option ThemeMode)
    (form : ThemeSwitchForm) :
  conform_contract conform_parse ->
  ThemeSwitch conform_parse fetchers userPreference = Return form ->
  submit form =
    [("theme", EntryString (theme_string (nextMode (form_mode form))))] /\
  z_enum (theme_string (nextMode (form_mode form))) =
    Some (nextMode (form_mode form)) /\
  action conform_parse setTheme (submit form) =
    Return (theme_set_response setTheme (nextMode (form_mode form))) /\
  action conform_parse setTheme (submit form) <>
    Throw (ThrownResponse invalid_theme_response).
Proof.
  intros Hcontract Hform.
  destruct (ThemeSwitch_inv _ _ _ _ Hform) as (o & _ & _ & Hshape).
  assert (form_inputs form =
          [("theme", theme_string (nextMode (form_mode form)))]) as Hinputs
    by by rewrite Hshape.
  destruct (submitted_context conform_parse _ form Hcontract Hinputs)
    as (context & Hctx & Htheme).
  rewrite action_outcome, Hctx, Htheme.
  split_and!; [by apply submit_theme | apply z_enum_theme_string | done..].
Qed.

Lemma ThemeSwitch_submission_accepted_witness :
  submit {| form_mode := dark; form_method := "POST";
            form_inputs := [("theme", "system")]; form_button := "moon" |} =
    [("theme", EntryString (theme_string (nextMode dark)))] /\
  z_enum (theme_string (nextMode dark)) = Some (nextMode dark) /\
  action sample_parse theme_string
    (submit {| form_mode := dark; form_method := "POST";
               form_inputs := [("theme", "system")];
               form_button := "moon" |}) =
    Return (theme_set_response theme_string (nextMode dark)) /\
  action sample_parse theme_string
    (submit {| form_mode := dark; form_method := "POST";
               form_inputs := [("theme", "system")];
               form_button := "moon" |}) <>
    Throw (ThrownResponse invalid_theme_response).
Proof.
  apply (ThemeSwitch_submission_accepted sample_parse theme_string
           [ {| formAction := Some "/";
                formData := Some [("theme", EntryString "dark")] |} ]
           (Some light)
           {| form_mode := dark; form_method := "POST";
              form_inputs := [("theme", "system")]; form_button := "moon" |}).
  - apply sample_parse_contract.
  - vm_compute. reflexivity.
Defined.

(** C10: with no optimistic value and no stored preference the mode of
    [ThemeSwitch] is [system], so the form it renders submits
    [theme] = [light]. The client hint is not an input of [ThemeSwitch]. *)
Theorem ThemeSwitch_default_mode
    (conform_parse : FormData -> Js SubmissionContext)
    (fetchers : list Fetcher) :
  useOptimisticThemeMode conform_parse fetchers = Return None ->
  exists form,
    ThemeSwitch conform_parse fetchers None = Return form /\
    form_mode form = system /\
    form_inputs form = [("theme", "light")] /\
    submit form = [("theme", EntryString "light")].
Proof.
  intros Hopt.
  destruct (ThemeSwitch_optimistic conform_parse fetchers None None Hopt)
    as (form & Hform & Hmode & Hinputs).
  simpl in Hmode. rewrite Hmode in Hinputs. simpl in Hinputs.
  exists form. split_and!; try done. by apply submit_theme.
Qed.

Lemma ThemeSwitch_default_mode_witness :
  exists form,
    ThemeSwitch sample_parse
                [ {| formAction := Some "/teams";
                     formData := Some [("theme", EntryString "dark")] |};
                  {| formAction := Some "/"; formData := None |} ]
                None = Return form /\
    form_mode form = system /\
    form_inputs form = [("theme", "light")] /\
    submit form = [("theme", EntryString "light")].
Proof.
  apply ThemeSwitch_default_mode. vm_compute. reflexivity.
Defined.

(** ** Further properties of the route module *)

(** X1: the wire format of the theme round-trips. A payload whose field
    [theme] is written with the literal of a mode parses to that mode,
    whatever its other fields; distinct modes have distinct literals; and a
    string the enumeration accepts is the literal of the mode it yields. *)
Theorem theme_wire_round_trip (payload : Payload) (m : ThemeMode) :
  ThemeFormSchema (<["theme" := FormString (theme_string m)]> payload) =
    Some {| theme := m |} /\
  (forall m', theme_string m = theme_string m' -> m = m') /\
  (forall s, z_enum s = Some m -> s = theme_string m).
Proof.
  split_and!.
  - apply ThemeFormSchema_Some. simpl. apply lookup_insert_eq.
  - apply theme_string_inj.
  - intros s. apply z_enum_Some.
Qed.

(** X3: the resolver looks at the fetchers whose [formAction] is ['/'] and
    at no other: dropping every other fetcher from the snapshot changes
    neither the optimistic value, nor the effective theme, nor what the
    theme switch renders, nor whether they throw. *)
Theorem resolver_ignores_other_fetchers
    (conform_parse : FormData -> Js SubmissionContext)
    (hints : Hints) (requestInfo : RequestInfo)
    (userPreference : option ThemeMode) (fetchers : list Fetcher) :
  useOptimisticThemeMode conform_parse (List.filter is_theme_fetcher fetchers) =
    useOptimisticThemeMode conform_parse fetchers /\
  useTheme conform_parse hints requestInfo
           (List.filter is_theme_fetcher fetchers) =
    useTheme conform_parse hints requestInfo fetchers /\
  ThemeSwitch conform_parse (List.filter is_theme_fetcher fetchers)
              userPreference =
    ThemeSwitch conform_parse fetchers userPreference.
Proof.
  assert (useOptimisticThemeMode conform_parse
            (List.filter is_theme_fetcher fetchers) =
          useOptimisticThemeMode conform_parse fetchers) as Hopt
    by by rewrite !useOptimisticThemeMode_find, find_filter.
  split_and!; [done | |].
  - unfold useTheme. by rewrite Hopt.
  - unfold ThemeSwitch. by rewrite Hopt.
Qed.

(** X4: the optimistic round trip of a toggle press. Once the form data of
    the rendered form is in flight to ['/'], ahead of any other theme
    fetcher, the optimistic value is the submitted [nextMode]: the switch
    shows it as its mode and offers the mode after it, and the effective
    theme is that mode, or the client hint when it is [system], before the
    server has answered and whatever the stored preference. What is used of
    the form library is that it reads form data with the single entry
    [theme] as the object with that field. *)
Theorem optimistic_toggle_round_trip
    (conform_parse : FormData -> Js SubmissionContext)
    (hints : Hints) (requestInfo : RequestInfo)
    (fetchers before after : list Fetcher)
    (userPreference later : option ThemeMode) (form : ThemeSwitchForm) :
  conform_contract conform_parse ->
  ThemeSwitch conform_parse fetchers userPreference = Return form ->
  no_theme_fetcher before ->
  useOptimisticThemeMode conform_parse
    (before ++ in_flight "/" form :: after) =
    Return (Some (nextMode (form_mode form))) /\
  ThemeSwitch conform_parse (before ++ in_flight "/" form :: after) later =
    Return {| form_mode := nextMode (form_mode form);
              form_method := "POST";
              form_inputs :=
                [("theme",
                  theme_string (nextMode (nextMode (form_mode form))))];
              form_button := modeLabel (nextMode (form_mode form)) |} /\
  useTheme conform_parse hints requestInfo
           (before ++ in_flight "/" form :: after) =
    Return (if decide (nextMode (form_mode form) = system)
            then hints_theme hints
            else nextMode (form_mode form)).
Proof.
  intros Hcontract Hform Hbefore.
  destruct (ThemeSwitch_inv _ _ _ _ Hform) as (o & _ & _ & Hshape).
  assert (form_inputs form =
          [("theme", theme_string (nextMode (form_mode form)))]) as Hinputs
    by by rewrite Hshape.
  destruct (submitted_context conform_parse _ form Hcontract Hinputs)
    as (context & Hctx & Htheme).
  assert (useOptimisticThemeMode conform_parse
            (before ++ in_flight "/" form :: after) =
          Return (Some (nextMode (form_mode form)))) as Hopt.
  { rewrite (useOptimisticThemeMode_first _ _ (in_flight "/" form))
      by by exists before, after.
    unfold optimistic_of. simpl. by rewrite Hctx, <- Htheme. }
  split_and!; [done | |].
  - unfold ThemeSwitch. by rewrite Hopt.
  - by rewrite (useTheme_optimistic _ _ _ _ _ Hopt).
Qed.

Lemma optimistic_toggle_round_trip_witness :
  useOptimisticThemeMode sample_parse
    ([ {| formAction := Some "/search"; formData := None |} ] ++
     in_flight "/"
       {| form_mode := light; form_method := "POST";
          form_inputs := [("theme", "dark")]; form_button := "sun" |}
     :: []) =
    Return (Some dark) /\
  ThemeSwitch sample_parse
    ([ {| formAction := Some "/search"; formData := None |} ] ++
     in_flight "/"
       {| form_mode := light; form_method := "POST";
          form_inputs := [("theme", "dark")]; form_button := "sun" |}
     :: []) (Some light) =
    Return {| form_mode := dark; form_method := "POST";
              form_inputs := [("theme", "system")];
              form_button := "moon" |} /\
  useTheme sample_parse
           {| hints_theme := light |}
           {| userPrefs := {| userPrefs_theme := Some light |} |}
    ([ {| formAction := Some "/search"; formData := None |} ] ++
     in_flight "/"
       {| form_mode := light; form_method := "POST";
          form_inputs := [("theme", "dark")]; form_button := "sun" |}
     :: []) =
    Return dark.
Proof.
  apply (optimistic_toggle_round_trip sample_parse
           {| hints_theme := light |}
           {| userPrefs := {| userPrefs_theme := Some light |} |}
           [] [ {| formAction := Some "/search"; formData := None |} ] []
           (Some light) (Some light)
           {| form_mode := light; form_method := "POST";
              form_inputs := [("theme", "dark")]; form_button := "sun" |}).
  - apply sample_parse_contract.
  - reflexivity.
  - constructor; [discriminate | constructor].
Defined.

(** X5: the page and the switch agree. In every view [App] renders with one
    stored preference behind both hooks, the class of [<html>] is the mode
    shown by the theme switch, except that a switch on [system] goes with
    the class of the client hint; this needs the stored preference not to be
    [system] when no optimistic value is in flight. *)
Theorem App_document_follows_switch
    (conform_parse : FormData -> Js SubmissionContext)
    (hints : Hints) (requestInfo data_requestInfo : RequestInfo)
    (fetchers : list Fetcher) (view : AppView) :
  App conform_parse hints requestInfo data_requestInfo fetchers = Return view ->
  userPrefs_theme (userPrefs data_requestInfo) =
    userPrefs_theme (userPrefs requestInfo) ->
  (useOptimisticThemeMode conform_parse fetchers = Return None ->
   userPrefs_theme (userPrefs requestInfo) <> Some system) ->
  form_button (themeSwitch view) = modeLabel (form_mode (themeSwitch view)) /\
  html_className view =
    theme_string (if decide (form_mode (themeSwitch view) = system)
                  then hints_theme hints
                  else form_mode (themeSwitch view))
    +:+ " h-full overflow-x-hidden".
Proof.
  intros Hview Hsame Hstored. unfold App in Hview.
  destruct (useOptimisticThemeMode_cases conform_parse fetchers)
    as [[o Ho] | [e He]].
  - rewrite (useTheme_optimistic _ _ _ _ _ Ho) in Hview.
    unfold ThemeSwitch in Hview. rewrite Ho, Hsame in Hview. simpl in Hview.
    injection Hview as <-. simpl. split; [done |].
    unfold Document_className. simpl.
    destruct o as [m |]; simpl; [done |].
    specialize (Hstored Ho).
    destruct (userPrefs_theme (userPrefs requestInfo)) as [[] |]; done.
  - apply (useTheme_throws _ hints requestInfo) in He.
    by rewrite He in Hview.
Qed.

Lemma App_document_follows_switch_witness :
  form_button
    (themeSwitch
       {| html_className := "dark h-full overflow-x-hidden";
          themeSwitch := {| form_mode := system; form_method := "POST";
                            form_inputs := [("theme", "light")];
                            form_button := "laptop" |} |}) =
  modeLabel
    (form_mode
       (themeSwitch
          {| html_className := "dark h-full overflow-x-hidden";
             themeSwitch := {| form_mode := system; form_method := "POST";
                               form_inputs := [("theme", "light")];
                               form_button := "laptop" |} |})) /\
  html_className
    {| html_className := "dark h-full overflow-x-hidden";
       themeSwitch := {| form_mode := system; form_method := "POST";
                         form_inputs := [("theme", "light")];
                         form_button := "laptop" |} |} =
  theme_string
    (if decide
          (form_mode
             (themeSwitch
                {| html_className := "dark h-full overflow-x-hidden";
                   themeSwitch := {| form_mode := system;
                                     form_method := "POST";
                                     form_inputs := [("theme", "light")];
                                     form_button := "laptop" |} |}) = system)
     then hints_theme {| hints_theme := dark |}
     else form_mode
            (themeSwitch
               {| html_className := "dark h-full overflow-x-hidden";
                  themeSwitch := {| form_mode := system;
                                    form_method := "POST";
                                    form_inputs := [("theme", "light")];
                                    form_button := "laptop" |} |}))
  +:+ " h-full overflow-x-hidden".
Proof.
  apply (App_document_follows_switch sample_parse
           {| hints_theme := dark |}
           {| userPrefs := {| userPrefs_theme := None |} |}
           {| userPrefs := {| userPrefs_theme := None |} |}
           [ {| formAction := Some "/";
                formData := Some [("theme", EntryString "teal")] |} ]).
  - vm_compute. reflexivity.
  - reflexivity.
  - discriminate.
Defined.

Lemma modeLabel_inj (m1 m2 : ThemeMode) : modeLabel m1 = modeLabel m2 -> m1 = m2.
Proof. by destruct m1, m2. Qed.

Lemma nextMode_inj (m1 m2 : ThemeMode) : nextMode m1 = nextMode m2 -> m1 = m2.
Proof. by destruct m1, m2. Qed.

(** X6: the icon of the switch tells the mode. Two renders of [ThemeSwitch]
    carry the same icon exactly when they have the same mode, and exactly
    when their hidden input submits the same value. *)
Theorem ThemeSwitch_icon_identifies_mode
    (conform_parse : FormData -> Js SubmissionContext)
    (fetchers1 fetchers2 : list Fetcher)
    (userPreference1 userPreference2 : option ThemeMode)
    (form1 form2 : ThemeSwitchForm) :
  ThemeSwitch conform_parse fetchers1 userPreference1 = Return form1 ->
  ThemeSwitch conform_parse fetchers2 userPreference2 = Return form2 ->
  (form_button form1 = form_button form2 <->
   form_mode form1 = form_mode form2) /\
  (form_inputs form1 = form_inputs form2 <->
   form_mode form1 = form_mode form2).
Proof.
  intros H1 H2.
  destruct (ThemeSwitch_inv _ _ _ _ H1) as (_ & _ & _ & ->).
  destruct (ThemeSwitch_inv _ _ _ _ H2) as (_ & _ & _ & ->). simpl.
  split; split.
  - apply modeLabel_inj.
  - by intros ->.
  - intros [= Hs]. by apply nextMode_inj, theme_string_inj.
  - by intros ->.
Qed.

Lemma ThemeSwitch_icon_identifies_mode_witness :
  (form_button {| form_mode := dark; form_method := "POST";
                  form_inputs := [("theme", "system")];
                  form_button := "moon" |} =
   form_button {| form_mode := dark; form_method := "POST";
                  form_inputs := [("theme", "system")];
                  form_button := "moon" |} <->
   form_mode {| form_mode := dark; form_method := "POST";
                form_inputs := [("theme", "system")];
                form_button := "moon" |} =
   form_mode {| form_mode := dark; form_method := "POST";
                form_inputs := [("theme", "system")];
                form_button := "moon" |}) /\
  (form_inputs {| form_mode := dark; form_method := "POST";
                  form_inputs := [("theme", "system")];
                  form_button := "moon" |} =
   form_inputs {| form_mode := dark; form_method := "POST";
                  form_inputs := [("theme", "system")];
                  form_button := "moon" |} <->
   form_mode {| form_mode := dark; form_method := "POST";
                form_inputs := [("theme", "system")];
                form_button := "moon" |} =
   form_mode {| form_mode := dark; form_method := "POST";
                form_inputs := [("theme", "system")];
                form_button := "moon" |}).
Proof.
  apply (ThemeSwitch_icon_identifies_mode sample_parse
           [ {| formAction := Some "/";
                formData := Some [("theme", EntryString "dark")] |} ]
           [ {| formAction := Some "/search"; formData := None |} ]
           (Some light) (Some dark)).
  - vm_compute. reflexivity.
  - vm_compute. reflexivity.
Defined.

(** ** Further properties of the link descriptors and the link component *)

Lemma links_with_bundle (iconsHref tailwindStyleSheetUrl h : string) :
  h <> "" ->
  links iconsHref tailwindStyleSheetUrl (Some h) =
  [ {| rel := "preload"; href := iconsHref; link_as := Some "image";
       link_type := None; crossOrigin := None |};
    {| rel := "preload"; href := tailwindStyleSheetUrl;
       link_as := Some "style"; link_type := None; crossOrigin := None |};
    {| rel := "preload"; href := h; link_as := Some "style";
       link_type := None; crossOrigin := None |};
    {| rel := "mask-icon"; href := "/favicons/mask-icon.svg";
       link_as := None; link_type := None; crossOrigin := None |};
    {| rel := "alternate icon"; href := "/favicons/favicon-32x32.png";
       link_as := None; link_type := Some "image/png"; crossOrigin := None |};
    {| rel := "apple-touch-icon"; href := "/favicons/apple-touch-icon.png";
       link_as := None; link_type := None; crossOrigin := None |};
    {| rel := "manifest"; href := "/site.webmanifest";
       link_as := None; link_type := None;
       crossOrigin := Some "use-credentials" |};
    {| rel := "icon"; href := "/favicons/favicon.svg";
       link_as := None; link_type := Some "image/svg+xml";
       crossOrigin := None |};
    {| rel := "stylesheet"; href := tailwindStyleSheetUrl;
       link_as := None; link_type := None; crossOrigin := None |};
    {| rel := "stylesheet"; href := h; link_as := None;
       link_type := None; crossOrigin := None |} ].
Proof. intros Hh. unfold links. by rewrite decide_False. Qed.

Lemma links_without_bundle (iconsHref tailwindStyleSheetUrl : string)
    (cssBundleHref : option string) :
  cssBundleHref = None \/ cssBundleHref = Some "" ->
  links iconsHref tailwindStyleSheetUrl cssBundleHref =
  [ {| rel := "preload"; href := iconsHref; link_as := Some "image";
       link_type := None; crossOrigin := None |};
    {| rel := "preload"; href := tailwindStyleSheetUrl;
       link_as := Some "style"; link_type := None; crossOrigin := None |};
    {| rel := "mask-icon"; href := "/favicons/mask-icon.svg";
       link_as := None; link_type := None; crossOrigin := None |};
    {| rel := "alternate icon"; href := "/favicons/favicon-32x32.png";
       link_as := None; link_type := Some "image/png"; crossOrigin := None |};
    {| rel := "apple-touch-icon"; href := "/favicons/apple-touch-icon.png";
       link_as := None; link_type := None; crossOrigin := None |};
    {| rel := "manifest"; href := "/site.webmanifest";
       link_as := None; link_type := None;
       crossOrigin := Some "use-credentials" |};
    {| rel := "icon"; href := "/favicons/favicon.svg";
       link_as := None; link_type := Some "image/svg+xml";
       crossOrigin := None |};
    {| rel := "stylesheet"; href := tailwindStyleSheetUrl;
       link_as := None; link_type := None; crossOrigin := None |} ].
Proof. by intros [-> | ->]. Qed.

Lemma links_cases (iconsHref tailwindStyleSheetUrl : string)
    (cssBundleHref : option string) :
  (exists h, h <> "" /\ cssBundleHref = Some h) \/
  cssBundleHref = None \/ cssBundleHref = Some "".
Proof.
  destruct cssBundleHref as [h |]; [| by right; left].
  destruct (decide (h = "")) as [-> | Hh]; [by right; right |].
  left. by exists h.
Qed.

(** X7: the style sheets of the route are exactly the preloaded ones. For
    every asset URL, [links] holds a style sheet with that [href] if and
    only if it holds a style preload with that [href], and each style sheet
    comes after its preload, with or without a CSS bundle. *)
Theorem links_stylesheets_match_preloads (iconsHref tailwindStyleSheetUrl : string)
    (cssBundleHref : option string) (h : string) :
  (Exists (is_stylesheet h) (links iconsHref tailwindStyleSheetUrl cssBundleHref)
   <->
   Exists (is_style_preload h)
          (links iconsHref tailwindStyleSheetUrl cssBundleHref)) /\
  (forall j l,
     links iconsHref tailwindStyleSheetUrl cssBundleHref !! j = Some l ->
     is_stylesheet h l ->
     exists i p,
       i < j /\
       links iconsHref tailwindStyleSheetUrl cssBundleHref !! i = Some p /\
       is_style_preload h p).
Proof.
  unfold is_stylesheet, is_style_preload.
  destruct (links_cases iconsHref tailwindStyleSheetUrl cssBundleHref)
    as [(b & Hb & ->) | Hnone].
  - rewrite (links_with_bundle _ _ _ Hb). split.
    + rewrite !Exists_cons, !Exists_nil. simpl.
      split; intros Hex; decompose [and or] Hex; simplify_eq; tauto.
    + intros j l Hj [Hrel Hhref].
      destruct j as [| [| [| [| [| [| [| [| [| [| j]]]]]]]]]];
        simplify_eq/=; [exists 1 | exists 2]; eexists;
        (split; [lia | split; [reflexivity | done]]).
  - rewrite (links_without_bundle _ _ _ Hnone). split.
    + rewrite !Exists_cons, !Exists_nil. simpl.
      split; intros Hex; decompose [and or] Hex; simplify_eq; tauto.
    + intros j l Hj [Hrel Hhref].
      destruct j as [| [| [| [| [| [| [| [| j]]]]]]]];
        simplify_eq/=; exists 1; eexists;
        (split; [lia | split; [reflexivity | done]]).
Qed.

(** X8: the CSS bundle is optional in [links]. An empty [cssBundleHref]
    gives the same eight links as an undefined one. A non-empty one gives
    those eight and two more, ten in all: the preload of the bundle right
    after the preload of the main style sheet, and the style sheet of the
    bundle at the end. *)
Theorem links_bundle_is_optional (iconsHref tailwindStyleSheetUrl h : string) :
  h <> "" ->
  links iconsHref tailwindStyleSheetUrl (Some "") =
    links iconsHref tailwindStyleSheetUrl None /\
  length (links iconsHref tailwindStyleSheetUrl None) = 8 /\
  length (links iconsHref tailwindStyleSheetUrl (Some h)) = 10 /\
  links iconsHref tailwindStyleSheetUrl (Some h) =
    take 2 (links iconsHref tailwindStyleSheetUrl None) ++
    {| rel := "preload"; href := h; link_as := Some "style";
       link_type := None; crossOrigin := None |} ::
    drop 2 (links iconsHref tailwindStyleSheetUrl None) ++
    [ {| rel := "stylesheet"; href := h; link_as := None;
         link_type := None; crossOrigin := None |} ].
Proof.
  intros Hh. rewrite (links_with_bundle _ _ _ Hh). by split_and!.
Qed.

Lemma links_bundle_is_optional_witness :
  links "/icons.svg" "/tailwind.css" (Some "") =
    links "/icons.svg" "/tailwind.css" None /\
  length (links "/icons.svg" "/tailwind.css" None) = 8 /\
  length (links "/icons.svg" "/tailwind.css" (Some "/bundle.css")) = 10 /\
  links "/icons.svg" "/tailwind.css" (Some "/bundle.css") =
    take 2 (links "/icons.svg" "/tailwind.css" None) ++
    {| rel := "preload"; href := "/bundle.css"; link_as := Some "style";
       link_type := None; crossOrigin := None |} ::
    drop 2 (links "/icons.svg" "/tailwind.css" None) ++
    [ {| rel := "stylesheet"; href := "/bundle.css"; link_as := None;
         link_type := None; crossOrigin := None |} ].
Proof.
  apply (links_bundle_is_optional "/icons.svg" "/tailwind.css" "/bundle.css").
  discriminate.
Defined.

Lemma clsx_base (className : option string) :
  clsx [Some link_base_class; className] =
  match className with
  | Some c => if decide (c = "") then link_base_class
              else link_base_class +:+ " " +:+ c
  | None => link_base_class
  end.
Proof.
  unfold clsx. simpl. destruct className as [c |]; [| done].
  by destruct (decide (c = "")).
Qed.

(** X9: what [CustomLink] hands to [Link]. The class always begins with the
    base classes of the component, followed by the caller's class after one
    space when it is a non-empty string; a [prefetch] of the caller wins
    over the default [intent]; every other prop is passed on unchanged. *)
Theorem CustomLink_props (allProps : gmap string PropValue) :
  CustomLink allProps !! "className" =
    Some (PString
            match className_of allProps with
            | Some c => if decide (c = "") then link_base_class
                        else link_base_class +:+ " " +:+ c
            | None => link_base_class
            end) /\
  CustomLink allProps !! "prefetch" =
    Some (default (PString "intent") (allProps !! "prefetch")) /\
  (forall k, k <> "className" -> k <> "prefetch" ->
             CustomLink allProps !! k = allProps !! k).
Proof.
  unfold CustomLink. rewrite clsx_base. split_and!.
  - rewrite lookup_union_r by apply lookup_delete_eq.
    apply lookup_insert_eq.
  - rewrite lookup_union, lookup_delete_ne by done.
    rewrite lookup_insert_ne, lookup_insert_eq by done.
    by destruct (allProps !! "prefetch").
  - intros k Hclass Hprefetch.
    rewrite lookup_union, lookup_delete_ne by done.
    rewrite !lookup_insert_ne, lookup_empty by done.
    by destruct (allProps !! k).
Qed.
